(** * LTSA REST API (api/main.py): a model of the request shim

    The service writes the specification text of a request to a temporary
    file, runs the external analyzer (java -jar ltsp.jar) on it and relays
    exit status, stdout and stderr.  Everything the code does is a call
    into the Python library (tempfile, subprocess, os, logging), so the
    model has two layers:

    - [Py]: the library calls the code uses, over a file system
      [gmap string string] and a trace of the calls, in a state, writer
      and exception monad;
    - [Api]: main.py itself, function by function.

    The file system is a finite map from paths to contents, without
    directories, permissions or quotas: creating and closing a file always
    works, and unlink fails only on a path that is not there.  External
    commands are given by the environment: whether they start, how long
    they run, what they exit with and what files they leave; their output
    is text, output that does not decode is not modelled.  In [Py] and
    [Api] text is a [string], its UTF-8 bytes, so there it always encodes;
    [Unicode] has [execute_ltsp_command] on any Python [str], lone
    surrogates included.  JSON bodies hold strings and nulls, no other
    values.  Requests are handled one at a time. *)

From Stdlib Require Import ZArith NArith.
From stdpp Require Import gmap strings list pretty.

(** ** The Python layer *)
Module Py.

(** Exception classes the code distinguishes in its [except] clauses.
    [OtherError] stands for every other subclass of [Exception]
    (PermissionError, OSError, UnicodeDecodeError, ...). *)
Inductive exn_class :=
| TimeoutExpired
| FileNotFoundError
| TypeError
| OtherError
| HTTPException (status_code : Z).

(** An exception object: its class and [str(e)]; for an [HTTPException]
    the text is its [detail]. *)
Record exn := Exn { cls : exn_class; str : string }.

Inductive outcome (A : Type) :=
| Return (a : A)
| Raise (e : exn).
Arguments Return {A} a.
Arguments Raise {A} e.

(** subprocess.CompletedProcess, with [capture_output=True, text=True]. *)
Record CompletedProcess :=
  { returncode : Z; stdout : string; stderr : string }.

Inductive level := INFO | WARNING | ERROR.

(** The calls into the library, in the order they happen. *)
Inductive event :=
| EvCreate (path : string)
| EvWrite (path data : string)
| EvClose (path : string)
| EvLog (lvl : level) (msg : string)
| EvRun (command : list string) (timeout : N) (r : outcome CompletedProcess)
| EvUnlink (path : string) (removed : bool).

(** What starting a command does, as the operating system decides it:
    the executable is missing, the start fails otherwise, or the process
    runs: [duration] is its running time in milliseconds ([None] when it
    never ends by itself), [result] what it exits with and [fs_after]
    the files it leaves behind. *)
Inductive launch :=
| NoSuchExecutable (program : string)
| SpawnError (msg : string)
| Started (duration : option N) (result : CompletedProcess)
          (fs_after : gmap string string).

(** The world outside the program: where the jar is expected, the name
    tempfile picks (directory, random part and suffix together; the
    library retries until the name is not taken), and the behaviour of
    external commands. *)
Record environment := {
  LTSP_JAR_PATH : string;
  mktemp : gset string -> string;
  mktemp_fresh : forall X : gset string, mktemp X ∉ X;
  exec : list string -> gmap string string -> launch
}.

(** State (the files), writer (the trace) and exceptions. *)
Definition M (A : Type) : Type :=
  gmap string string -> outcome A * gmap string string * list event.

Definition ret {A} (a : A) : M A := fun fs => (Return a, fs, []).

Definition bind {A B} (m : M A) (k : A -> M B) : M B := fun fs =>
  match m fs with
  | (Return a, fs1, t1) =>
      match k a fs1 with (r, fs2, t2) => (r, fs2, t1 ++ t2) end
  | (Raise e, fs1, t1) => (Raise e, fs1, t1)
  end.

Definition raise {A} (e : exn) : M A := fun fs => (Raise e, fs, []).

Definition emit (ev : event) : M unit := fun fs => (Return tt, fs, [ev]).

(** [try: body except ...: handler e]; a handler re-raises what no
    clause matches. *)
Definition try_except {A} (body : M A) (handler : exn -> M A) : M A :=
  fun fs =>
    match body fs with
    | (Return a, fs1, t1) => (Return a, fs1, t1)
    | (Raise e, fs1, t1) =>
        match handler e fs1 with (r, fs2, t2) => (r, fs2, t1 ++ t2) end
    end.

(** [try: body finally: fin]: [fin] runs on every way out of [body];
    the result of [body] stands unless [fin] itself raises. *)
Definition try_finally {A} (body : M A) (fin : M unit) : M A := fun fs =>
  match body fs with
  | (r, fs1, t1) =>
      match fin fs1 with
      | (Return _, fs2, t2) => (r, fs2, t1 ++ t2)
      | (Raise e, fs2, t2) => (Raise e, fs2, t1 ++ t2)
      end
  end.

Declare Scope py_scope.
Delimit Scope py_scope with py.
Notation "x <- m ;; k" := (bind m (fun x => k))
  (at level 100, m at next level, right associativity) : py_scope.
Notation "m ;;; k" := (bind m (fun _ => k))
  (at level 100, right associativity) : py_scope.

Definition result_of {A} (x : outcome A * gmap string string * list event)
  : outcome A := x.1.1.
Definition files_of {A} (x : outcome A * gmap string string * list event)
  : gmap string string := x.1.2.
Definition trace_of {A} (x : outcome A * gmap string string * list event)
  : list event := x.2.

(** *** logging *)
Definition logger (lvl : level) (msg : string) : M unit :=
  emit (EvLog lvl msg).

(** *** str.join on a list that may hold None ([Optional[str]] items) *)
Definition dec (n : nat) : string := pretty n.

Fixpoint join_from (i : nat) (sep : string) (seq : list (option string))
  : exn + string :=
  match seq with
  | [] => inr ""
  | None :: _ =>
      inl (Exn TypeError
             ("sequence item " +:+ dec i +:+
              ": expected str instance, NoneType found"))
  | Some x :: rest =>
      match join_from (S i) sep rest with
      | inl e => inl e
      | inr s => inr (match rest with [] => x | _ => x +:+ sep +:+ s end)
      end
  end.

Definition join (sep : string) (seq : list (option string)) : M string :=
  match join_from 0 sep seq with
  | inl e => raise e
  | inr s => ret s
  end.

(** *** tempfile.NamedTemporaryFile(mode='w', delete=False) *)
Record TextIO := { name : string; buffer : string }.

Section WithEnv.
Context (env : environment).

Definition NamedTemporaryFile : M TextIO := fun fs =>
  let p := mktemp env (dom fs) in
  (Return {| name := p; buffer := "" |}, <[p := ""]> fs, [EvCreate p]).

(** [write] fills the buffer of the file object. *)
Definition write (f : TextIO) (data : string) : M TextIO := fun fs =>
  (Return {| name := name f; buffer := buffer f +:+ data |}, fs,
   [EvWrite (name f) data]).

(** Leaving the [with] block closes the file, which flushes the
    buffer to disk; with [delete=False] the file stays. *)
Definition close (f : TextIO) : M unit := fun fs =>
  (Return tt, <[name f := buffer f]> fs, [EvClose (name f)]).

(** *** os *)
Definition errno2 (path : string) : exn :=
  Exn FileNotFoundError
      ("[Errno 2] No such file or directory: '" +:+ path +:+ "'").

Definition unlink (path : string) : M unit := fun fs =>
  match fs !! path with
  | Some _ => (Return tt, delete path fs, [EvUnlink path true])
  | None => (Raise (errno2 path), fs, [EvUnlink path false])
  end.

Definition path_exists (path : string) : M bool := fun fs =>
  (Return (bool_decide (is_Some (fs !! path))), fs, []).

(** *** subprocess.run(command, capture_output=True, timeout=t) *)
Definition within (duration : option N) (timeout : N) : bool :=
  match duration with
  | Some d => (d <=? timeout * 1000)%N
  | None => false
  end.

Definition repr (command : list string) : string :=
  "[" +:+ String.concat ", " (map (fun s => "'" +:+ s +:+ "'") command)
      +:+ "]".

Definition timed_out (command : list string) (timeout : N) : exn :=
  Exn TimeoutExpired
      ("Command '" +:+ repr command +:+ "' timed out after " +:+
       pretty timeout +:+ " seconds").

Fixpoint all_str (seq : list (option string)) : option (list string) :=
  match seq with
  | [] => Some []
  | Some x :: rest => cons x <$> all_str rest
  | None :: _ => None
  end.

Definition run_process (command : list string) (timeout : N)
           (fs : gmap string string)
  : outcome CompletedProcess * gmap string string :=
  match exec env command fs with
  | NoSuchExecutable program => (Raise (errno2 program), fs)
  | SpawnError msg => (Raise (Exn OtherError msg), fs)
  | Started d cp fs' =>
      if within d timeout then (Return cp, fs')
      else (Raise (timed_out command timeout), fs')
  end.

Definition subprocess_run (command : list (option string)) (timeout : N)
  : M CompletedProcess :=
  match all_str command with
  | None =>
      raise (Exn TypeError
               "expected str, bytes or os.PathLike object, not NoneType")
  | Some cmd => fun fs =>
      let r := run_process cmd timeout fs in
      (r.1, r.2, [EvRun cmd timeout r.1])
  end.
End WithEnv.
End Py.

(** ** api/main.py *)
Module Api.
Import Py.
Local Open Scope py_scope.

(** *** Request and response models *)
Record LTSRequest := { content : string; process : option string }.

(** [class LTLRequest(LTSRequest)]: the inherited fields are reached
    through the coercion. *)
Record LTLRequest := { base :> LTSRequest; property : string }.

Record LTSResponse :=
  { success : bool; output : string; error : option string }.

(** The JSON body of a request, as far as the models look at it: a field
    is absent, null or a string. *)
Inductive json := JNull | JString (s : string).

(** Field declarations of [LTSRequest]: [content] is required ([...]) and
    a [str]; [process] is [Optional[str]] with default "DEFAULT", so the
    default is taken when the key is absent and an explicit null stays
    [None].  [None] as a result is the framework's rejection (422) before
    any endpoint code runs. *)
Definition validate_LTSRequest (body : gmap string json) : option LTSRequest :=
  match body !! "content" with
  | Some (JString c) =>
      Some {| content := c;
              process := match body !! "process" with
                         | None => Some "DEFAULT"
                         | Some JNull => None
                         | Some (JString p) => Some p
                         end |}
  | _ => None
  end.

Definition validate_LTLRequest (body : gmap string json) : option LTLRequest :=
  match validate_LTSRequest body, body !! "property" with
  | Some r, Some (JString l) => Some {| base := r; property := l |}
  | _, _ => None
  end.

(** Truth value of a [str]: only the empty string is false. *)
Definition truthy (s : string) : bool :=
  match s with
  | EmptyString => false
  | String _ _ => true
  end.

Section WithEnv.
Context (env : environment).

(** [execute_ltsp_command] is lines 46-94; its three blocks are named
    here and put together below.

    The [finally] block, lines 89-94: unlink, and a warning instead of any
    exception of it. *)
Definition temp_cleanup (temp_file_path : string) : M unit :=
  try_except
    (unlink temp_file_path)
    (fun e =>
       logger WARNING ("Failed to delete temporary file " +:+ temp_file_path
                       +:+ ": " +:+ str e)).

(** The [except] clauses, lines 82-88, in their order: TimeoutExpired,
    FileNotFoundError, then any Exception. *)
Definition on_error (e : exn) : M LTSResponse :=
  match cls e with
  | TimeoutExpired =>
      raise (Exn (HTTPException 408) "Command execution timed out")
  | FileNotFoundError =>
      raise (Exn (HTTPException 500)
               ("Java or ltsp.jar not found. Please ensure Java is installed and ltsp.jar exists at "
                +:+ LTSP_JAR_PATH env))
  | _ =>
      logger ERROR ("Error executing command: " +:+ str e) ;;;
      raise (Exn (HTTPException 500) ("Internal server error: " +:+ str e))
  end.

(** The body of the [try], lines 56-80. *)
Definition run_analyzer (temp_file_path : string) (args : list (option string))
  : M LTSResponse :=
  let command :=
    [Some "java"; Some "-jar"; Some (LTSP_JAR_PATH env); Some temp_file_path]
      ++ args in
  shown <- join " " command ;;
  logger INFO ("Executing command: " +:+ shown) ;;;
  result <- subprocess_run env command 30 ;;
  let output := stdout result in
  let error := if truthy (stderr result) then Some (stderr result) else None in
  let success := (returncode result =? 0)%Z in
  ret {| success := success; output := output; error := error |}.

(** Lines 51-53 write the file inside [with]; leaving the block closes
    it.  Then the [try] with its handlers and its [finally]. *)
Definition execute_ltsp_command (lts_content : string)
           (args : list (option string)) : M LTSResponse :=
  temp_file <- NamedTemporaryFile env ;;
  temp_file <- write temp_file lts_content ;;
  let temp_file_path := name temp_file in
  close temp_file ;;;
  try_finally
    (try_except (run_analyzer temp_file_path args) on_error)
    (temp_cleanup temp_file_path).

(** *** Endpoints *)
Definition parse (request : LTSRequest) : M LTSResponse :=
  execute_ltsp_command (content request) [Some "-b"; Some "parse"].

Definition compile (request : LTSRequest) : M LTSResponse :=
  let args := [Some "-b"; Some "compile"; Some "-p"; process request] in
  execute_ltsp_command (content request) args.

Definition compose (request : LTSRequest) : M LTSResponse :=
  let args := [Some "-b"; Some "compose"; Some "-p"; process request] in
  execute_ltsp_command (content request) args.

Definition check_safety (request : LTSRequest) : M LTSResponse :=
  let args := [Some "-c"; Some "safety"; Some "-p"; process request] in
  execute_ltsp_command (content request) args.

Definition check_progress (request : LTSRequest) : M LTSResponse :=
  let args := [Some "-c"; Some "progress"; Some "-p"; process request] in
  execute_ltsp_command (content request) args.

Definition check_ltl (request : LTLRequest) : M LTSResponse :=
  let args := [Some "-c"; Some "ltl_property"; Some "-p"; process request;
               Some "-l"; Some (property request)] in
  execute_ltsp_command (content request) args.

(** The dictionary returned by [health_check], lines 187-192. *)
Record HealthResponse := {
  status : string;
  ltsp_jar_exists : bool;
  ltsp_jar_path : string;
  java_available : bool
}.

(** Lines 174-192; the bare [except:] takes every exception. *)
Definition health_check : M HealthResponse :=
  jar_exists <- path_exists (LTSP_JAR_PATH env) ;;
  java_available <-
    try_except
      (subprocess_run env [Some "java"; Some "-version"] 5 ;;; ret true)
      (fun _ => ret false) ;;
  ret {| status := if jar_exists && java_available
                   then "healthy" else "unhealthy";
         ltsp_jar_exists := jar_exists;
         ltsp_jar_path := LTSP_JAR_PATH env;
         java_available := java_available |}.

(** *** Routing: the six POST routes. *)
Inductive route :=
| Parse | Compile | Compose | CheckSafety | CheckProgress | CheckLtl.

(** A validated request on its way to an endpoint function. *)
Inductive call :=
| CallParse (request : LTSRequest)
| CallCompile (request : LTSRequest)
| CallCompose (request : LTSRequest)
| CallCheckSafety (request : LTSRequest)
| CallCheckProgress (request : LTSRequest)
| CallCheckLtl (request : LTLRequest).

Definition handle (c : call) : M LTSResponse :=
  match c with
  | CallParse request => parse request
  | CallCompile request => compile request
  | CallCompose request => compose request
  | CallCheckSafety request => check_safety request
  | CallCheckProgress request => check_progress request
  | CallCheckLtl request => check_ltl request
  end.

(** Requests handled one after the other; what is left is the files. *)
Fixpoint serve (history : list call) (fs : gmap string string)
  : gmap string string :=
  match history with
  | [] => fs
  | c :: rest => serve rest (files_of (handle c fs))
  end.

(** *** Closed forms of the pieces of [execute_ltsp_command], for the proofs *)

(** Position of the first None of a list. *)
Fixpoint none_index (seq : list (option string)) : nat :=
  match seq with
  | Some _ :: rest => S (none_index rest)
  | _ => 0
  end.

(** The TypeError of [" ".join(command)] when [args] holds a None: the
    four leading items of the command are strings. *)
Definition join_error (args : list (option string)) : exn :=
  Exn TypeError ("sequence item " +:+ dec (4 + none_index args) +:+
                 ": expected str instance, NoneType found").

(** The command line built at line 57. *)
Definition command_line (temp_file_path : string) (flags : list string)
  : list string :=
  ["java"; "-jar"; LTSP_JAR_PATH env; temp_file_path] ++ flags.

(** What the [finally] block leaves in the trace: the unlink, and the
    warning when the file was no longer there. *)
Definition cleanup_trace (p : string) (fs : gmap string string) : list event :=
  match fs !! p with
  | Some _ => [EvUnlink p true]
  | None => [EvUnlink p false;
             EvLog WARNING ("Failed to delete temporary file " +:+ p +:+ ": "
                            +:+ str (errno2 p))]
  end.

(** The reply of the [except] clauses and what they log. *)
Definition error_reply (e : exn) : exn :=
  match cls e with
  | TimeoutExpired => Exn (HTTPException 408) "Command execution timed out"
  | FileNotFoundError =>
      Exn (HTTPException 500)
        ("Java or ltsp.jar not found. Please ensure Java is installed and ltsp.jar exists at "
         +:+ LTSP_JAR_PATH env)
  | _ => Exn (HTTPException 500) ("Internal server error: " +:+ str e)
  end.

Definition error_log (e : exn) : list event :=
  match cls e with
  | TimeoutExpired | FileNotFoundError => []
  | _ => [EvLog ERROR ("Error executing command: " +:+ str e)]
  end.

(** The response built at lines 70-80. *)
Definition response_of (cp : CompletedProcess) : LTSResponse :=
  {| success := (returncode cp =? 0)%Z;
     output := stdout cp;
     error := if truthy (stderr cp) then Some (stderr cp) else None |}.

Definition reply_of (r : outcome CompletedProcess) : outcome LTSResponse :=
  match r with
  | Return cp => Return (response_of cp)
  | Raise e => Raise (error_reply e)
  end.

Definition reply_log (r : outcome CompletedProcess) : list event :=
  match r with
  | Return _ => []
  | Raise e => error_log e
  end.

(** The specification file as the analyzer finds it. *)
Definition temp_path (fs : gmap string string) : string :=
  mktemp env (dom fs).

Definition with_spec (lts_content : string) (fs : gmap string string)
  : gmap string string :=
  <[temp_path fs := lts_content]> fs.

End WithEnv.

Definition route_of (c : call) : route :=
  match c with
  | CallParse _ => Parse
  | CallCompile _ => Compile
  | CallCompose _ => Compose
  | CallCheckSafety _ => CheckSafety
  | CallCheckProgress _ => CheckProgress
  | CallCheckLtl _ => CheckLtl
  end.

Definition request_of (c : call) : LTSRequest :=
  match c with
  | CallParse r | CallCompile r | CallCompose r
  | CallCheckSafety r | CallCheckProgress r => r
  | CallCheckLtl r => base r
  end.

Definition property_of (c : call) : string :=
  match c with
  | CallCheckLtl r => property r
  | _ => ""
  end.

(** The call a route makes of a body, when the body validates. *)
Definition call_of (r : route) (body : gmap string json) : option call :=
  match r with
  | Parse => CallParse <$> validate_LTSRequest body
  | Compile => CallCompile <$> validate_LTSRequest body
  | Compose => CallCompose <$> validate_LTSRequest body
  | CheckSafety => CallCheckSafety <$> validate_LTSRequest body
  | CheckProgress => CallCheckProgress <$> validate_LTSRequest body
  | CheckLtl => CallCheckLtl <$> validate_LTLRequest body
  end.

(** A POST request: the body is validated against the model of the route
    and the endpoint function runs on the result; [None] is the rejection
    of the body. *)
Definition post (env : environment) (r : route) (body : gmap string json)
  : option (M LTSResponse) :=
  handle env <$> call_of r body.

(** The argument list each endpoint hands to [execute_ltsp_command]. *)
Definition args_of (c : call) : list (option string) :=
  match c with
  | CallParse _ => [Some "-b"; Some "parse"]
  | CallCompile r => [Some "-b"; Some "compile"; Some "-p"; process r]
  | CallCompose r => [Some "-b"; Some "compose"; Some "-p"; process r]
  | CallCheckSafety r => [Some "-c"; Some "safety"; Some "-p"; process r]
  | CallCheckProgress r => [Some "-c"; Some "progress"; Some "-p"; process r]
  | CallCheckLtl r =>
      [Some "-c"; Some "ltl_property"; Some "-p"; process r;
       Some "-l"; Some (property r)]
  end.

(** *** Reading a trace *)

(** The commands handed to subprocess.run, with their timeouts. *)
Fixpoint commands_run (t : list event) : list (list string * N) :=
  match t with
  | [] => []
  | EvRun command timeout _ :: rest => (command, timeout) :: commands_run rest
  | _ :: rest => commands_run rest
  end.

(** What subprocess.run gave back, call by call. *)
Fixpoint run_results (t : list event) : list (outcome CompletedProcess) :=
  match t with
  | [] => []
  | EvRun _ _ r :: rest => r :: run_results rest
  | _ :: rest => run_results rest
  end.

(** The trace without the log lines. *)
Fixpoint steps (t : list event) : list event :=
  match t with
  | [] => []
  | EvLog _ _ :: rest => steps rest
  | ev :: rest => ev :: steps rest
  end.


(** *** The contract with the analyzer, in the words of the specification:
    mode flags per endpoint. *)
Definition mode_flags (r : route) (process property : string) : list string :=
  match r with
  | Parse => ["-b"; "parse"]
  | Compile => ["-b"; "compile"; "-p"; process]
  | Compose => ["-b"; "compose"; "-p"; process]
  | CheckSafety => ["-c"; "safety"; "-p"; process]
  | CheckProgress => ["-c"; "progress"; "-p"; process]
  | CheckLtl => ["-c"; "ltl_property"; "-p"; process; "-l"; property]
  end.

End Api.

(** ** A concrete installation, to run the model on *)
Module Demo.
Import Py Api.

Definition jar : string := "/app/ltsp.jar".

Definition report (code : Z) (out err : string) : CompletedProcess :=
  {| returncode := code; stdout := out; stderr := err |}.

(** A stand-in analyzer that looks at the specification file it is given:
    it accepts "P = (a -> P).", accepts "WARN" with a warning on stderr,
    never ends on "LOOP", deletes its input on "GONE", cannot be started
    on "DENIED", and reports a syntax error on anything else. *)
Definition analyze (path : string) (fs : gmap string string) : launch :=
  match fs !! path with
  | None => Started (Some 40%N) (report 2 "" "cannot read input") fs
  | Some text =>
      if String.eqb text "P = (a -> P)." then
        Started (Some 1200%N) (report 0 "Parsed successfully" "") fs
      else if String.eqb text "WARN" then
        Started (Some 800%N) (report 0 "Compiled" "warning: unused action") fs
      else if String.eqb text "LOOP" then
        Started None (report 0 "" "") fs
      else if String.eqb text "GONE" then
        Started (Some 500%N) (report 0 "done" "") (delete path fs)
      else if String.eqb text "DENIED" then
        SpawnError "[Errno 13] Permission denied: 'java'"
      else
        Started (Some 900%N) (report 1 "" "syntax error") fs
  end.

Definition machine (java_installed : bool) (command : list string)
           (fs : gmap string string) : launch :=
  if java_installed then
    match command with
    | [_; _] => Started (Some 150%N) (report 0 "" "openjdk version 17") fs
    | _ :: _ :: _ :: path :: _ => analyze path fs
    | _ => SpawnError "unexpected command"
    end
  else NoSuchExecutable "java".

Definition installation (java_installed : bool) : environment :=
  {| LTSP_JAR_PATH := jar;
     mktemp := fresh;
     mktemp_fresh := is_fresh;
     exec := machine java_installed |}.

Definition env : environment := installation true.

Definition disk : gmap string string := {[ jar := "PK" ]}.

Definition request (text : string) (proc : option string) : LTSRequest :=
  {| content := text; process := proc |}.



(** What a run on [disk] comes to: the reply, the temporary file "0" if it
    is left, and the steps. *)
Definition outcome_of
           (x : outcome LTSResponse * gmap string string * list event)
  : outcome LTSResponse * option string * list event :=
  (result_of x, files_of x !! "0", steps (trace_of x)).

End Demo.

(** ** The rest of main.py: the index page and the route table; and what
    the properties below read off a trace *)
Module Rest.
Import Py Api.

(** The paths of the [@app.post] decorators, lines 114-163. *)
Definition path_of (r : route) : string :=
  match r with
  | Parse => "/parse"
  | Compile => "/compile"
  | Compose => "/compose"
  | CheckSafety => "/check/safety"
  | CheckProgress => "/check/progress"
  | CheckLtl => "/check/ltl"
  end.

(** The dictionary returned by [root], lines 98-112; [endpoints] is the
    inner dictionary. *)
Record RootResponse := {
  message : string;
  version : string;
  docs : string;
  endpoints : gmap string string
}.

Definition root : RootResponse :=
  {| message := "LTSA REST API";
     version := "1.0.0";
     docs := "/docs";
     endpoints :=
       {[ "parse" := "/parse";
          "compile" := "/compile";
          "compose" := "/compose";
          "safety" := "/check/safety";
          "progress" := "/check/progress";
          "ltl" := "/check/ltl" ]} |}.

(** The lines handed to the logger, with their levels, in order. *)
Fixpoint log_lines (t : list event) : list (level * string) :=
  match t with
  | [] => []
  | EvLog lvl msg :: rest => (lvl, msg) :: log_lines rest
  | _ :: rest => log_lines rest
  end.

(** External commands that leave every file as they found it. *)
Definition leaves_files (env : environment) : Prop :=
  forall cmd fs d cp fs', exec env cmd fs = Started d cp fs' -> fs' = fs.

(** The demo machine, kept from touching the files. *)
Definition tidy_machine (command : list string) (fs : gmap string string)
  : launch :=
  match Demo.machine true command fs with
  | Started d cp _ => Started d cp fs
  | l => l
  end.

Definition tidy_env : environment :=
  {| LTSP_JAR_PATH := Demo.jar;
     mktemp := fresh;
     mktemp_fresh := is_fresh;
     exec := tidy_machine |}.

End Rest.

(** ** Text that does not encode

    A Python [str] is a sequence of code points and may hold lone
    surrogates (the JSON text "\ud800" decodes to one), which the utf-8
    codec of the temporary file refuses.  [string] above is text as its
    UTF-8 bytes, that is, text that encodes.  This module has
    [execute_ltsp_command] on any [str]; on text that encodes it is
    [Api.execute_ltsp_command] (lemma [execute_str_encoded]). *)
Module Unicode.
Import Py Api.
Local Open Scope py_scope.

Definition is_surrogate (c : N) : bool :=
  ((0xD800 <=? c) && (c <=? 0xDFFF))%N.

(** The UTF-8 bytes of one code point that is not a surrogate. *)
Definition utf8_char (c : N) : list Ascii.ascii :=
  (if c <? 0x80 then
     [Ascii.ascii_of_N c]
   else if c <? 0x800 then
     [Ascii.ascii_of_N (N.lor 0xC0 (N.shiftr c 6));
      Ascii.ascii_of_N (N.lor 0x80 (N.land c 0x3F))]
   else if c <? 0x10000 then
     [Ascii.ascii_of_N (N.lor 0xE0 (N.shiftr c 12));
      Ascii.ascii_of_N (N.lor 0x80 (N.land (N.shiftr c 6) 0x3F));
      Ascii.ascii_of_N (N.lor 0x80 (N.land c 0x3F))]
   else
     [Ascii.ascii_of_N (N.lor 0xF0 (N.shiftr c 18));
      Ascii.ascii_of_N (N.lor 0x80 (N.land (N.shiftr c 12) 0x3F));
      Ascii.ascii_of_N (N.lor 0x80 (N.land (N.shiftr c 6) 0x3F));
      Ascii.ascii_of_N (N.lor 0x80 (N.land c 0x3F))])%N.

(** The attributes of a UnicodeEncodeError: the first code point refused
    and the positions [start, stop) of the run of surrogates it opens. *)
Record encode_error := { bad : N; start : nat; stop : nat }.

Fixpoint surrogate_run (s : list N) : nat :=
  match s with
  | c :: rest => if is_surrogate c then S (surrogate_run rest) else 0
  | [] => 0
  end.

Fixpoint utf8_encode_from (i : nat) (s : list N) : encode_error + string :=
  match s with
  | [] => inr ""
  | c :: rest =>
      if is_surrogate c then
        inl {| bad := c; start := i; stop := i + surrogate_run s |}
      else
        match utf8_encode_from (S i) rest with
        | inl err => inl err
        | inr bytes => inr (String.string_of_list_ascii (utf8_char c) +:+ bytes)
        end
  end.

(** [s.encode('utf-8')], strict. *)
Definition utf8_encode (s : list N) : encode_error + string :=
  utf8_encode_from 0 s.

Definition hex_digit (n : N) : string :=
  match n with
  | 0 => "0" | 1 => "1" | 2 => "2" | 3 => "3" | 4 => "4" | 5 => "5"
  | 6 => "6" | 7 => "7" | 8 => "8" | 9 => "9" | 10 => "a" | 11 => "b"
  | 12 => "c" | 13 => "d" | 14 => "e" | _ => "f"
  end%N.

Definition hex4 (c : N) : string :=
  hex_digit (N.land (N.shiftr c 12) 0xF) +:+
  hex_digit (N.land (N.shiftr c 8) 0xF) +:+
  hex_digit (N.land (N.shiftr c 4) 0xF) +:+
  hex_digit (N.land c 0xF).

(** [str(e)] of the UnicodeEncodeError. *)
Definition encode_error_text (err : encode_error) : string :=
  if decide (stop err = S (start err)) then
    "'utf-8' codec can't encode character '\u" +:+ hex4 (bad err) +:+
    "' in position " +:+ pretty (start err) +:+ ": surrogates not allowed"
  else
    "'utf-8' codec can't encode characters in position " +:+
    pretty (start err) +:+ "-" +:+ pretty (stop err - 1) +:+
    ": surrogates not allowed".

(** [temp_file.write(s)] in text mode: the text is encoded when it is
    written; text that does not encode raises (UnicodeEncodeError is among
    the other subclasses of Exception) and leaves the buffer as it was. *)
Definition write_str (f : TextIO) (s : list N) : M TextIO :=
  match utf8_encode s with
  | inl err => raise (Exn OtherError (encode_error_text err))
  | inr data => write f data
  end.

(** [with ... as f: body]: the file is closed on the way out, also when
    the body raises. *)
Definition with_file {A} (f : TextIO) (body : M (TextIO * A)) : M A :=
  fun fs =>
    match body fs with
    | (Return (f', a), fs1, t1) =>
        match close f' fs1 with (_, fs2, t2) => (Return a, fs2, t1 ++ t2) end
    | (Raise e, fs1, t1) =>
        match close f fs1 with (_, fs2, t2) => (Raise e, fs2, t1 ++ t2) end
    end.

(** Lines 46-94 on any [str]: the [with] block of lines 51-53 comes
    before the [try] of line 55, so what it raises is neither handled by
    the [except] clauses nor followed by the [finally]. *)
Definition execute_ltsp_command_str (env : environment)
           (lts_content : list N) (args : list (option string))
  : M LTSResponse :=
  temp_file <- NamedTemporaryFile env ;;
  temp_file_path <-
    with_file temp_file
      (temp_file <- write_str temp_file lts_content ;;
       ret (temp_file, name temp_file)) ;;
  try_finally
    (try_except (run_analyzer env temp_file_path args) (on_error env))
    (temp_cleanup temp_file_path).

(** The body {"content": "P = (a -> P).", "process": null}. *)
Definition null_process_body : gmap string json :=
  {[ "content" := JString "P = (a -> P)."; "process" := JNull ]}.

End Unicode.

Import Py Api.
Local Open Scope py_scope.

(** ** Equations of the library layer and of [execute_ltsp_command] *)
Section Facts.
Context (env : environment).

Lemma all_str_map (l : list string) : all_str (map Some l) = Some l.
Proof. induction l as [|x l IH]; simpl; [done | by rewrite IH]. Qed.

Lemma all_str_Some (seq : list (option string)) (l : list string) :
  all_str seq = Some l -> seq = map Some l.
Proof.
  revert l; induction seq as [|[x|] seq IH]; intros l; simpl.
  - by intros [= <-].
  - destruct (all_str seq) as [l'|] eqn:E; simpl; [|done].
    intros [= <-]; simpl. by rewrite (IH l').
  - done.
Qed.

Lemma all_str_app (l : list string) (seq : list (option string)) :
  all_str (map Some l ++ seq) = (app l) <$> all_str seq.
Proof.
  induction l as [|x l IH]; simpl.
  - by destruct (all_str seq).
  - rewrite IH. by destruct (all_str seq).
Qed.

Lemma join_from_strs (i : nat) (sep : string) (l : list string) :
  join_from i sep (map Some l) = inr (String.concat sep l).
Proof.
  revert i; induction l as [|x l IH]; intros i; simpl; [done|].
  rewrite IH. by destruct l.
Qed.

Lemma join_from_None (i : nat) (sep : string) (seq : list (option string)) :
  all_str seq = None ->
  join_from i sep seq =
    inl (Exn TypeError
           ("sequence item " +:+ dec (i + none_index seq) +:+
            ": expected str instance, NoneType found")).
Proof.
  revert i; induction seq as [|[x|] seq IH]; intros i; simpl.
  - done.
  - destruct (all_str seq) eqn:E; simpl; [done|]. intros _.
    rewrite (IH (S i) eq_refl). by rewrite Nat.add_succ_r.
  - intros _. by rewrite Nat.add_0_r.
Qed.

Lemma temp_cleanup_eq (p : string) (fs : gmap string string) :
  temp_cleanup p fs = (Return tt, delete p fs, cleanup_trace p fs).
Proof.
  unfold temp_cleanup, try_except, unlink, cleanup_trace.
  destruct (fs !! p) eqn:E; [done|].
  simpl. by rewrite delete_id.
Qed.

Lemma on_error_eq (e : exn) (fs : gmap string string) :
  on_error env e fs = (Raise (error_reply env e), fs, error_log e).
Proof.
  unfold on_error, error_reply, error_log. by destruct (cls e).
Qed.

Lemma temp_path_fresh (fs : gmap string string) :
  fs !! temp_path env fs = None.
Proof. apply not_elem_of_dom, mktemp_fresh. Qed.

(** All arguments are strings: the analyzer runs. *)
Lemma execute_run (lts_content : string) (flags : list string)
      (fs : gmap string string) :
  let p := temp_path env fs in
  let cmd := command_line env p flags in
  let r := run_process env cmd 30 (with_spec env lts_content fs) in
  execute_ltsp_command env lts_content (map Some flags) fs =
    (reply_of env r.1, delete p r.2,
     [EvCreate p; EvWrite p lts_content; EvClose p;
      EvLog INFO ("Executing command: " +:+ String.concat " " cmd);
      EvRun cmd 30 r.1] ++ reply_log r.1 ++ cleanup_trace p r.2).
Proof.
  intros p cmd r.
  unfold execute_ltsp_command, bind at 1 2 3, NamedTemporaryFile, write, close.
  cbn [name buffer]. rewrite insert_insert_eq.
  fold (temp_path env fs) p.
  change (<[p:=_]> fs) with (with_spec env lts_content fs).
  unfold try_finally, try_except, run_analyzer, bind, join, subprocess_run.
  change ([Some "java"; Some "-jar"; Some (LTSP_JAR_PATH env); Some p]
            ++ map Some flags) with (map Some cmd).
  rewrite join_from_strs, all_str_map. cbn [ret logger emit].
  fold r. destruct r as [[cp|e] fs2]; cbn [fst snd].
  - rewrite temp_cleanup_eq. reflexivity.
  - rewrite on_error_eq, temp_cleanup_eq. cbn [reply_of reply_log app].
    reflexivity.
Qed.

(** Some argument is None: joining the command for the log line raises
    and the analyzer is never started. *)
Lemma execute_null (lts_content : string) (args : list (option string))
      (fs : gmap string string) :
  all_str args = None ->
  execute_ltsp_command env lts_content args fs =
    (Raise (error_reply env (join_error args)), fs,
     [EvCreate (temp_path env fs); EvWrite (temp_path env fs) lts_content;
      EvClose (temp_path env fs);
      EvLog ERROR ("Error executing command: " +:+ str (join_error args));
      EvUnlink (temp_path env fs) true]).
Proof.
  intros Hnone.
  assert (join_from 0 " "
            ([Some "java"; Some "-jar"; Some (LTSP_JAR_PATH env);
              Some (temp_path env fs)] ++ args) = inl (join_error args)) as Hk.
  { cbn [app join_from]. by rewrite (join_from_None 4 " " args Hnone). }
  unfold execute_ltsp_command, bind at 1 2 3, NamedTemporaryFile, write, close.
  cbn [name buffer]. rewrite insert_insert_eq. fold (temp_path env fs).
  unfold try_finally, try_except, run_analyzer, bind at 1, join.
  rewrite Hk. cbn [raise]. rewrite on_error_eq, temp_cleanup_eq.
  unfold cleanup_trace. rewrite lookup_insert_eq, delete_insert_id.
  - reflexivity.
  - apply temp_path_fresh.
Qed.

End Facts.

(** ** The two shapes of a call, and what can be read off its trace *)
Section Shapes.
Context (env : environment).

Lemma all_str_cases (args : list (option string)) :
  (exists flags, args = map Some flags) \/ all_str args = None.
Proof.
  destruct (all_str args) as [flags|] eqn:E; [left|by right].
  exists flags. by apply all_str_Some.
Qed.

Lemma elem_of_reply_log (ev : event) (r : outcome CompletedProcess) :
  ev ∈ reply_log r -> exists lvl msg, ev = EvLog lvl msg.
Proof.
  destruct r as [cp|e]; cbn [reply_log]; [by intros ?%elem_of_nil|].
  unfold error_log.
  destruct (cls e); try (by intros ?%elem_of_nil);
    intros ->%list_elem_of_singleton; eauto.
Qed.

Lemma elem_of_cleanup_trace (ev : event) (p : string)
      (fs : gmap string string) :
  ev ∈ cleanup_trace p fs ->
  (exists b, ev = EvUnlink p b) \/ (exists lvl msg, ev = EvLog lvl msg).
Proof.
  unfold cleanup_trace. destruct (fs !! p).
  - intros ->%list_elem_of_singleton. left; eauto.
  - rewrite !elem_of_cons. intros [->|[->|?%elem_of_nil]]; [left|right|done];
      eauto.
Qed.

(** A subprocess.run in the trace of [execute_ltsp_command] is the one of
    line 62: on the command line of line 57, with timeout 30, started on
    the files with the specification in place; its result decides the
    reply. *)
Lemma run_in_trace (lts_content : string) (args : list (option string))
      (fs : gmap string string) (cmd : list string) (t : N)
      (r : outcome CompletedProcess) :
  let x := execute_ltsp_command env lts_content args fs in
  EvRun cmd t r ∈ trace_of x ->
  exists flags,
    args = map Some flags /\
    cmd = command_line env (temp_path env fs) flags /\
    t = 30%N /\
    r = (run_process env cmd 30 (with_spec env lts_content fs)).1 /\
    result_of x = reply_of env r.
Proof.
  intros x. subst x.
  destruct (all_str_cases args) as [[flags ->]|Hnone].
  - rewrite execute_run. unfold trace_of, result_of. cbn [fst snd].
    rewrite !elem_of_app, !elem_of_cons.
    intros [[?|[?|[?|[?|[H|?%elem_of_nil]]]]]|[H|H]]; try discriminate;
      try done.
    + injection H as -> -> ->. exists flags. done.
    + apply elem_of_reply_log in H as (? & ? & ?). discriminate.
    + apply elem_of_cleanup_trace in H as [[? ?]|(? & ? & ?)]; discriminate.
  - rewrite (execute_null env lts_content args fs Hnone).
    unfold trace_of. cbn [fst snd]. rewrite !elem_of_cons.
    intros [?|[?|[?|[?|[?|?%elem_of_nil]]]]]; try discriminate; done.
Qed.

Lemma handle_execute (c : call) :
  handle env c =
    execute_ltsp_command env (content (request_of c)) (args_of c).
Proof. by destruct c. Qed.

Lemma args_of_flags (c : call) (p : string) :
  process (request_of c) = Some p ->
  args_of c = map Some (mode_flags (route_of c) p (property_of c)).
Proof. destruct c as [r|r|r|r|r|r]; cbn; intros E; by rewrite ?E. Qed.

Lemma args_of_parse (c : call) (p l : string) :
  route_of c = Parse -> args_of c = map Some (mode_flags Parse p l).
Proof. by destruct c. Qed.

Lemma args_of_null (c : call) :
  route_of c <> Parse -> process (request_of c) = None ->
  all_str (args_of c) = None.
Proof. destruct c as [r|r|r|r|r|r]; cbn; try done; intros _ E; by rewrite E. Qed.

Lemma steps_app (t1 t2 : list event) : steps (t1 ++ t2) = steps t1 ++ steps t2.
Proof.
  induction t1 as [|ev t1 IH]; [done|].
  destruct ev; cbn [steps app]; by rewrite ?IH.
Qed.

Lemma steps_reply_log (r : outcome CompletedProcess) : steps (reply_log r) = [].
Proof.
  destruct r as [cp|e]; [done|]. cbn. unfold error_log. by destruct (cls e).
Qed.

Lemma steps_cleanup_trace (p : string) (fs : gmap string string) :
  steps (cleanup_trace p fs) = [EvUnlink p (bool_decide (is_Some (fs !! p)))].
Proof. unfold cleanup_trace. by destruct (fs !! p). Qed.

End Shapes.

Section Replies.
Context (env : environment).

(** A response comes from a subprocess.run that returned. *)
Lemma return_has_run (lts_content : string) (args : list (option string))
      (fs : gmap string string) (resp : LTSResponse) :
  result_of (execute_ltsp_command env lts_content args fs) = Return resp ->
  exists cmd cp,
    EvRun cmd 30 (Return cp)
      ∈ trace_of (execute_ltsp_command env lts_content args fs) /\
    resp = response_of cp.
Proof.
  destruct (all_str_cases args) as [[flags ->]|Hnone].
  - rewrite execute_run. unfold result_of, trace_of. cbn [fst snd].
    destruct (run_process env _ 30 _) as [[cp|e] fs2]; cbn [fst snd reply_of];
      [|done].
    intros [= <-]. exists (command_line env (temp_path env fs) flags), cp.
    split; [|done]. rewrite elem_of_app. left. do 4 right. left.
  - by rewrite (execute_null env lts_content args fs Hnone).
Qed.

(** An error status comes from the [except] clauses: 408 from the first
    one only. *)
Lemma status_408_has_timeout (lts_content : string)
      (args : list (option string)) (fs : gmap string string)
      (detail : string) :
  result_of (execute_ltsp_command env lts_content args fs)
    = Raise (Exn (HTTPException 408) detail) ->
  exists cmd e,
    EvRun cmd 30 (Raise e)
      ∈ trace_of (execute_ltsp_command env lts_content args fs) /\
    cls e = TimeoutExpired.
Proof.
  destruct (all_str_cases args) as [[flags ->]|Hnone].
  - rewrite execute_run. unfold result_of, trace_of. cbn [fst snd].
    destruct (run_process env _ 30 _) as [[cp|e] fs2]; cbn [fst snd reply_of];
      [done|].
    intros H. exists (command_line env (temp_path env fs) flags), e.
    split; [rewrite elem_of_app; left; do 4 right; left|].
    revert H. unfold error_reply. by destruct (cls e).
  - by rewrite (execute_null env lts_content args fs Hnone).
Qed.

End Replies.

(** C1: when the subprocess call of [execute_ltsp_command] returns, the
    response has [success] true exactly when the exit status is 0,
    [output] equal to the captured stdout, and [error] carrying the
    captured stderr (the text it carries, nothing for None, is stderr). *)
Theorem C1_response_relays_process
        (env : environment) (lts_content : string)
        (args : list (option string)) (fs : gmap string string)
        (cmd : list string) (t : N) (cp : CompletedProcess) :
  EvRun cmd t (Return cp)
    ∈ trace_of (execute_ltsp_command env lts_content args fs) ->
  exists resp,
    result_of (execute_ltsp_command env lts_content args fs) = Return resp /\
    (success resp = true <-> returncode cp = 0%Z) /\
    output resp = stdout cp /\
    default "" (error resp) = stderr cp.
Proof.
  intros Hrun.
  destruct (run_in_trace env _ _ _ _ _ _ Hrun) as (flags & _ & _ & _ & _ & ->).
  exists (response_of cp). split; [done|]. cbn. split; [apply Z.eqb_eq|].
  split; [done|]. by destruct (stderr cp).
Qed.

Lemma C1_witness :
  exists resp,
    result_of (execute_ltsp_command Demo.env "P = (a -> P)."
                 [Some "-b"; Some "parse"] Demo.disk) = Return resp /\
    (success resp = true <-> 0%Z = 0%Z) /\
    output resp = "Parsed successfully" /\
    default "" (error resp) = "".
Proof.
  apply (C1_response_relays_process Demo.env "P = (a -> P)."
           [Some "-b"; Some "parse"] Demo.disk
           ["java"; "-jar"; "/app/ltsp.jar"; "0"; "-b"; "parse"] 30
           (Demo.report 0 "Parsed successfully" "")).
  vm_compute. repeat constructor.
Defined.

(** C3: every subprocess.run of [execute_ltsp_command] is given the
    timeout 30; when it raises TimeoutExpired, which is when the process
    runs longer than that, the request fails with HTTP 408 "Command
    execution timed out"; a run that returns, whatever its exit status,
    yields an ordinary LTSResponse; and a 408 comes from nothing but a
    timeout. *)
Theorem C3_timeout_is_distinct
        (env : environment) (lts_content : string)
        (args : list (option string)) (fs : gmap string string) :
  (forall cmd t r,
      EvRun cmd t r ∈ trace_of (execute_ltsp_command env lts_content args fs) ->
      t = 30%N) /\
  (forall cmd t e,
      EvRun cmd t (Raise e)
        ∈ trace_of (execute_ltsp_command env lts_content args fs) ->
      cls e = TimeoutExpired ->
      result_of (execute_ltsp_command env lts_content args fs)
        = Raise (Exn (HTTPException 408) "Command execution timed out")) /\
  (forall cmd t cp,
      EvRun cmd t (Return cp)
        ∈ trace_of (execute_ltsp_command env lts_content args fs) ->
      exists resp,
        result_of (execute_ltsp_command env lts_content args fs) = Return resp /\
        success resp = (returncode cp =? 0)%Z) /\
  (forall detail,
      result_of (execute_ltsp_command env lts_content args fs)
        = Raise (Exn (HTTPException 408) detail) ->
      exists cmd e,
        EvRun cmd 30 (Raise e)
          ∈ trace_of (execute_ltsp_command env lts_content args fs) /\
        cls e = TimeoutExpired) /\
  (forall flags d cp fs',
      args = map Some flags ->
      exec env (["java"; "-jar"; LTSP_JAR_PATH env; mktemp env (dom fs)]
                  ++ flags)
           (<[mktemp env (dom fs) := lts_content]> fs) = Started d cp fs' ->
      result_of (execute_ltsp_command env lts_content args fs)
        = if within d 30
          then Return {| success := (returncode cp =? 0)%Z;
                         output := stdout cp;
                         error := if truthy (stderr cp)
                                  then Some (stderr cp) else None |}
          else Raise (Exn (HTTPException 408) "Command execution timed out")).
Proof.
  repeat split.
  - intros cmd t r H. by destruct (run_in_trace env _ _ _ _ _ _ H) as (?&?&?&?&?).
  - intros cmd t e H He.
    destruct (run_in_trace env _ _ _ _ _ _ H) as (flags & _ & _ & _ & _ & ->).
    cbn. unfold error_reply. by rewrite He.
  - intros cmd t cp H.
    destruct (run_in_trace env _ _ _ _ _ _ H) as (flags & _ & _ & _ & _ & ->).
    by exists (response_of cp).
  - apply status_408_has_timeout.
  - intros flags d cp fs' -> Hexec. rewrite execute_run.
    unfold result_of, run_process, command_line, with_spec, temp_path.
    cbn [fst snd]. rewrite Hexec. by destruct (within d 30).
Qed.

Lemma C3_witness :
  result_of (execute_ltsp_command Demo.env "LOOP" [Some "-b"; Some "parse"]
               Demo.disk)
  = Raise (Exn (HTTPException 408) "Command execution timed out")
  /\ exists resp,
      result_of (execute_ltsp_command Demo.env "P = (a -> Q)."
                   [Some "-b"; Some "parse"] Demo.disk) = Return resp /\
      success resp = false.
Proof.
  split.
  - apply (proj1 (proj2 (C3_timeout_is_distinct Demo.env "LOOP"
                           [Some "-b"; Some "parse"] Demo.disk))
             ["java"; "-jar"; "/app/ltsp.jar"; "0"; "-b"; "parse"] 30%N
             (timed_out ["java"; "-jar"; "/app/ltsp.jar"; "0"; "-b"; "parse"]
                        30)).
    + vm_compute. repeat constructor.
    + reflexivity.
  - apply (proj1 (proj2 (proj2 (C3_timeout_is_distinct Demo.env "P = (a -> Q)."
                           [Some "-b"; Some "parse"] Demo.disk)))
             ["java"; "-jar"; "/app/ltsp.jar"; "0"; "-b"; "parse"] 30%N
             (Demo.report 1 "" "syntax error")).
    vm_compute. repeat constructor.
Defined.

(** C8: in every LTSResponse of [execute_ltsp_command] the [error] field
    is None exactly when the stderr of the run is empty and is the stderr
    text otherwise; [success] plays no part in it: runs with either value
    of [success] carry text in [error]. *)
Theorem C8_error_is_stderr_or_none :
  (forall (env : environment) (lts_content : string)
          (args : list (option string)) (fs : gmap string string)
          (resp : LTSResponse),
      result_of (execute_ltsp_command env lts_content args fs) = Return resp ->
      exists cmd cp,
        EvRun cmd 30 (Return cp)
          ∈ trace_of (execute_ltsp_command env lts_content args fs) /\
        (error resp = None <-> stderr cp = "") /\
        (stderr cp <> "" -> error resp = Some (stderr cp))) /\
  (forall b : bool,
      exists env lts_content args fs resp text,
        result_of (execute_ltsp_command env lts_content args fs) = Return resp /\
        success resp = b /\ error resp = Some text).
Proof.
  split.
  - intros env lts_content args fs resp H.
    destruct (return_has_run env _ _ _ _ H) as (cmd & cp & Hin & ->).
    exists cmd, cp. split; [done|]. cbn.
    destruct (stderr cp); cbn; split; try done.
  - intros [|].
    + exists Demo.env, "WARN", [Some "-b"; Some "compile"; Some "-p"; Some "P"],
        Demo.disk, (response_of (Demo.report 0 "Compiled" "warning: unused action")),
        "warning: unused action".
      by vm_compute.
    + exists Demo.env, "P = (a -> Q).", [Some "-b"; Some "parse"], Demo.disk,
        (response_of (Demo.report 1 "" "syntax error")), "syntax error".
      by vm_compute.
Qed.

Lemma C8_witness :
  exists cmd cp,
    EvRun cmd 30 (Return cp)
      ∈ trace_of (execute_ltsp_command Demo.env "WARN"
                    [Some "-b"; Some "parse"] Demo.disk) /\
    (Some "warning: unused action" = None <-> stderr cp = "") /\
    (stderr cp <> "" -> Some "warning: unused action" = Some (stderr cp)).
Proof.
  apply (proj1 C8_error_is_stderr_or_none Demo.env "WARN"
           [Some "-b"; Some "parse"] Demo.disk
           {| success := true; output := "Compiled";
              error := Some "warning: unused action" |}).
  vm_compute. reflexivity.
Defined.

Section Endpoints.
Context (env : environment).

Lemma commands_run_app (t1 t2 : list event) :
  commands_run (t1 ++ t2) = commands_run t1 ++ commands_run t2.
Proof.
  induction t1 as [|ev t1 IH]; [done|].
  destruct ev; cbn [commands_run app]; by rewrite ?IH.
Qed.

(** The steps of a call whose arguments are all strings. *)
Lemma execute_steps (lts_content : string) (flags : list string)
      (fs : gmap string string) :
  steps (trace_of (execute_ltsp_command env lts_content (map Some flags) fs)) =
    [EvCreate (temp_path env fs);
     EvWrite (temp_path env fs) lts_content;
     EvClose (temp_path env fs);
     EvRun (command_line env (temp_path env fs) flags) 30
       (run_process env (command_line env (temp_path env fs) flags) 30
          (with_spec env lts_content fs)).1;
     EvUnlink (temp_path env fs)
       (bool_decide
          (is_Some
             ((run_process env (command_line env (temp_path env fs) flags) 30
                 (with_spec env lts_content fs)).2 !! temp_path env fs)))].
Proof.
  rewrite execute_run. unfold trace_of. cbn [fst snd].
  by rewrite !steps_app, steps_reply_log, steps_cleanup_trace.
Qed.

(** The temporary file is gone when the call is over. *)
Lemma execute_removes (lts_content : string) (args : list (option string))
      (fs : gmap string string) :
  files_of (execute_ltsp_command env lts_content args fs)
    !! temp_path env fs = None.
Proof.
  destruct (all_str_cases args) as [[flags ->]|Hnone].
  - rewrite execute_run. unfold files_of. cbn [fst snd].
    apply lookup_delete_eq.
  - rewrite (execute_null env _ _ _ Hnone). apply temp_path_fresh.
Qed.

(** The trace opens with the creation, filling and closing of the file. *)
Lemma execute_opens (lts_content : string) (args : list (option string))
      (fs : gmap string string) :
  exists rest,
    trace_of (execute_ltsp_command env lts_content args fs) =
      EvCreate (temp_path env fs) :: EvWrite (temp_path env fs) lts_content
        :: EvClose (temp_path env fs) :: rest.
Proof.
  destruct (all_str_cases args) as [[flags ->]|Hnone].
  - rewrite execute_run. unfold trace_of. cbn [fst snd app]. eauto.
  - rewrite (execute_null env _ _ _ Hnone). unfold trace_of. cbn. eauto.
Qed.

Lemma handle_flags (c : call) (pr : string) :
  process (request_of c) = Some pr \/ route_of c = Parse ->
  handle env c =
    execute_ltsp_command env (content (request_of c))
      (map Some (mode_flags (route_of c) pr (property_of c))).
Proof.
  intros [H|H]; rewrite handle_execute.
  - by rewrite (args_of_flags c pr H).
  - by rewrite (args_of_parse c pr (property_of c) H), H.
Qed.

End Endpoints.

Section Invocations.
Context (env : environment).

Lemma commands_run_reply_log (r : outcome CompletedProcess) :
  commands_run (reply_log r) = [].
Proof.
  destruct r as [cp|e]; [done|]. cbn. unfold error_log. by destruct (cls e).
Qed.

Lemma commands_run_cleanup_trace (p : string) (fs : gmap string string) :
  commands_run (cleanup_trace p fs) = [].
Proof. unfold cleanup_trace. by destruct (fs !! p). Qed.

Lemma run_results_app (t1 t2 : list event) :
  run_results (t1 ++ t2) = run_results t1 ++ run_results t2.
Proof.
  induction t1 as [|ev t1 IH]; [done|].
  destruct ev; cbn [run_results app]; by rewrite ?IH.
Qed.

Lemma run_results_reply_log (r : outcome CompletedProcess) :
  run_results (reply_log r) = [].
Proof.
  destruct r as [cp|e]; [done|]. cbn. unfold error_log. by destruct (cls e).
Qed.

Lemma run_results_cleanup_trace (p : string) (fs : gmap string string) :
  run_results (cleanup_trace p fs) = [].
Proof. unfold cleanup_trace. by destruct (fs !! p). Qed.

(** The one command a call runs when its arguments are all strings. *)
Lemma execute_commands (lts_content : string) (flags : list string)
      (fs : gmap string string) :
  commands_run
    (trace_of (execute_ltsp_command env lts_content (map Some flags) fs)) =
    [(["java"; "-jar"; LTSP_JAR_PATH env; mktemp env (dom fs)] ++ flags,
      30%N)].
Proof.
  rewrite execute_run. unfold trace_of. cbn [fst snd].
  rewrite !commands_run_app, commands_run_reply_log,
    commands_run_cleanup_trace.
  reflexivity.
Qed.

(** The reply is read off what subprocess.run gave back. *)
Lemma execute_reply (lts_content : string) (args : list (option string))
      (fs : gmap string string) :
  result_of (execute_ltsp_command env lts_content args fs) =
    match run_results
            (trace_of (execute_ltsp_command env lts_content args fs)) with
    | r :: _ => reply_of env r
    | [] => Raise (error_reply env (join_error args))
    end.
Proof.
  destruct (all_str_cases args) as [[flags ->]|Hnone].
  - rewrite execute_run. unfold trace_of, result_of. cbn [fst snd].
    by rewrite !run_results_app.
  - by rewrite (execute_null env _ _ _ Hnone).
Qed.

End Invocations.

(** C7: the reply to a request is decided by the request and by what its
    subprocess call gave back, and by nothing else: whatever requests were
    handled before, from whatever files, two calls of the same endpoint
    with the same request that observe the same subprocess result have the
    same reply. *)
Theorem C7_stateless_deterministic
        (env : environment) (c : call) (h1 h2 : list call)
        (f1 f2 : gmap string string) :
  run_results (trace_of (handle env c (serve env h1 f1))) =
  run_results (trace_of (handle env c (serve env h2 f2))) ->
  result_of (handle env c (serve env h1 f1)) =
  result_of (handle env c (serve env h2 f2)).
Proof.
  rewrite handle_execute, !execute_reply. by intros ->.
Qed.

Lemma C7_witness :
  result_of (handle Demo.env (CallParse (Demo.request "WARN" None))
               (serve Demo.env [] Demo.disk)) =
  result_of (handle Demo.env (CallParse (Demo.request "WARN" None))
               (serve Demo.env
                  [CallCompile (Demo.request "GONE" (Some "P"));
                   CallCheckSafety (Demo.request "LOOP" None)]
                  (<["/tmp/old.lts" := "LOOP"]> Demo.disk))).
Proof.
  apply (C7_stateless_deterministic Demo.env
           (CallParse (Demo.request "WARN" None)) []
           [CallCompile (Demo.request "GONE" (Some "P"));
            CallCheckSafety (Demo.request "LOOP" None)]
           Demo.disk (<["/tmp/old.lts" := "LOOP"]> Demo.disk)).
  vm_compute. reflexivity.
Defined.

Section Health.
Context (env : environment).

Lemma health_check_eq (fs : gmap string string) :
  health_check env fs =
    (Return
       {| status :=
            if bool_decide (is_Some (fs !! LTSP_JAR_PATH env))
               && match (run_process env ["java"; "-version"] 5 fs).1 with
                  | Return _ => true
                  | Raise _ => false
                  end
            then "healthy" else "unhealthy";
          ltsp_jar_exists := bool_decide (is_Some (fs !! LTSP_JAR_PATH env));
          ltsp_jar_path := LTSP_JAR_PATH env;
          java_available :=
            match (run_process env ["java"; "-version"] 5 fs).1 with
            | Return _ => true
            | Raise _ => false
            end |},
     (run_process env ["java"; "-version"] 5 fs).2,
     [EvRun ["java"; "-version"] 5
        (run_process env ["java"; "-version"] 5 fs).1]).
Proof.
  unfold health_check, bind, try_except, path_exists, subprocess_run.
  change (all_str [Some "java"; Some "-version"])
    with (Some ["java"; "-version"]).
  cbv beta iota.
  by destruct (run_process env ["java"; "-version"] 5 fs) as [[cp|e] fs'].
Qed.




End Health.




(** C5: the health probe checks on its own that the jar is a file on disk
    and that java -version can be run (within 5 seconds, whatever it
    exits with), and reports the two as the fields [ltsp_jar_exists] and
    [java_available]; every combination of the two occurs. *)
Theorem C5_health_two_checks :
  (forall (env : environment) (fs : gmap string string),
      exists h,
        result_of (health_check env fs) = Return h /\
        (ltsp_jar_exists h = true <-> is_Some (fs !! LTSP_JAR_PATH env)) /\
        (java_available h = true <->
         exists cp,
           (run_process env ["java"; "-version"] 5 fs).1 = Return cp) /\
        commands_run (trace_of (health_check env fs))
          = [(["java"; "-version"], 5%N)]) /\
  (forall b1 b2 : bool,
      exists env fs h,
        result_of (health_check env fs) = Return h /\
        ltsp_jar_exists h = b1 /\ java_available h = b2).
Proof.
  split.
  - intros env fs. rewrite health_check_eq. eexists. split; [reflexivity|].
    cbn. split; [apply bool_decide_eq_true|]. split; [|done].
    destruct (run_process env _ 5 fs).1 as [cp|e]; split; eauto; try done.
    by intros [? ?].
  - intros b1 b2.
    exists (Demo.installation b2), (if b1 then Demo.disk else ∅).
    rewrite health_check_eq. eexists. split; [reflexivity|].
    by destruct b1, b2; vm_compute.
Qed.

(** C10: the [status] of the health probe is "healthy" exactly when
    [ltsp_jar_exists] and [java_available] are both true, and "unhealthy"
    otherwise. *)
Theorem C10_health_status (env : environment) (fs : gmap string string) :
  exists h,
    result_of (health_check env fs) = Return h /\
    (status h = "healthy" <->
     ltsp_jar_exists h = true /\ java_available h = true) /\
    (status h = "unhealthy" <->
     ~ (ltsp_jar_exists h = true /\ java_available h = true)).
Proof.
  rewrite health_check_eq. eexists. split; [reflexivity|]. cbn.
  destruct (bool_decide _); destruct (run_process env _ 5 fs).1; cbn;
    intuition discriminate.
Qed.

(** ** The ways out of [execute_ltsp_command], run on the demo installation

    Each line gives the reply, whether the temporary file "0" is left, and
    the steps of the call. *)
Section ExitPaths.

Example exit_success :
  Demo.outcome_of (parse Demo.env (Demo.request "P = (a -> P)." (Some "DEFAULT"))
                Demo.disk) =
  (Return {| success := true; output := "Parsed successfully"; error := None |},
   None,
   [EvCreate "0"; EvWrite "0" "P = (a -> P)."; EvClose "0";
    EvRun ["java"; "-jar"; "/app/ltsp.jar"; "0"; "-b"; "parse"] 30
      (Return (Demo.report 0 "Parsed successfully" ""));
    EvUnlink "0" true]).
Proof. vm_compute. reflexivity. Qed.

Example exit_analyzer_failure :
  Demo.outcome_of (check_safety Demo.env (Demo.request "P = (a -> Q)." (Some "P"))
                Demo.disk) =
  (Return {| success := false; output := ""; error := Some "syntax error" |},
   None,
   [EvCreate "0"; EvWrite "0" "P = (a -> Q)."; EvClose "0";
    EvRun ["java"; "-jar"; "/app/ltsp.jar"; "0"; "-c"; "safety"; "-p"; "P"] 30
      (Return (Demo.report 1 "" "syntax error"));
    EvUnlink "0" true]).
Proof. vm_compute. reflexivity. Qed.

Example exit_timeout :
  Demo.outcome_of (compose Demo.env (Demo.request "LOOP" (Some "P")) Demo.disk) =
  (Raise (Exn (HTTPException 408) "Command execution timed out"),
   None,
   [EvCreate "0"; EvWrite "0" "LOOP"; EvClose "0";
    EvRun ["java"; "-jar"; "/app/ltsp.jar"; "0"; "-b"; "compose"; "-p"; "P"] 30
      (Raise (timed_out ["java"; "-jar"; "/app/ltsp.jar"; "0";
                         "-b"; "compose"; "-p"; "P"] 30));
    EvUnlink "0" true]).
Proof. vm_compute. reflexivity. Qed.

Example exit_java_missing :
  Demo.outcome_of (parse (Demo.installation false)
                (Demo.request "P = (a -> P)." (Some "DEFAULT")) Demo.disk) =
  (Raise (Exn (HTTPException 500)
            "Java or ltsp.jar not found. Please ensure Java is installed and ltsp.jar exists at /app/ltsp.jar"),
   None,
   [EvCreate "0"; EvWrite "0" "P = (a -> P)."; EvClose "0";
    EvRun ["java"; "-jar"; "/app/ltsp.jar"; "0"; "-b"; "parse"] 30
      (Raise (errno2 "java"));
    EvUnlink "0" true]).
Proof. vm_compute. reflexivity. Qed.

Example exit_other_exception :
  Demo.outcome_of (parse Demo.env (Demo.request "DENIED" (Some "DEFAULT"))
                Demo.disk) =
  (Raise (Exn (HTTPException 500)
            "Internal server error: [Errno 13] Permission denied: 'java'"),
   None,
   [EvCreate "0"; EvWrite "0" "DENIED"; EvClose "0";
    EvRun ["java"; "-jar"; "/app/ltsp.jar"; "0"; "-b"; "parse"] 30
      (Raise (Exn OtherError "[Errno 13] Permission denied: 'java'"));
    EvUnlink "0" true]).
Proof. vm_compute. reflexivity. Qed.

(** An explicit null for [process]: the log line cannot be joined, and
    nothing is run. *)
Example exit_null_process :
  Demo.outcome_of (compile Demo.env (Demo.request "P = (a -> P)." None) Demo.disk) =
  (Raise (Exn (HTTPException 500)
            "Internal server error: sequence item 7: expected str instance, NoneType found"),
   None,
   [EvCreate "0"; EvWrite "0" "P = (a -> P)."; EvClose "0";
    EvUnlink "0" true]).
Proof. vm_compute. reflexivity. Qed.

(** The analyzer removed its input: the unlink fails, a warning is logged,
    and the response stands. *)
Example exit_file_already_gone :
  Demo.outcome_of (parse Demo.env (Demo.request "GONE" (Some "DEFAULT")) Demo.disk) =
  (Return {| success := true; output := "done"; error := None |},
   None,
   [EvCreate "0"; EvWrite "0" "GONE"; EvClose "0";
    EvRun ["java"; "-jar"; "/app/ltsp.jar"; "0"; "-b"; "parse"] 30
      (Return (Demo.report 0 "done" ""));
    EvUnlink "0" false]).
Proof. vm_compute. reflexivity. Qed.

Example health_without_java :
  result_of (health_check (Demo.installation false) Demo.disk) =
  Return {| status := "unhealthy"; ltsp_jar_exists := true;
            ltsp_jar_path := "/app/ltsp.jar"; java_available := false |}.
Proof. vm_compute. reflexivity. Qed.

End ExitPaths.

(** ** Further properties of main.py *)
Import Rest.

Section Logging.
Context (env : environment).

Lemma log_lines_app (t1 t2 : list event) :
  log_lines (t1 ++ t2) = log_lines t1 ++ log_lines t2.
Proof.
  induction t1 as [|ev t1 IH]; [done|].
  destruct ev; cbn [log_lines app]; by rewrite ?IH.
Qed.

Lemma log_lines_cleanup_trace (p : string) (fs : gmap string string) :
  log_lines (cleanup_trace p fs) =
    match fs !! p with
    | Some _ => []
    | None => [(WARNING,
                "Failed to delete temporary file " +:+ p +:+
                ": [Errno 2] No such file or directory: '" +:+ p +:+ "'")]
    end.
Proof. unfold cleanup_trace. by destruct (fs !! p). Qed.

(** The files a call leaves: those the command left, less the temporary
    file. *)
Lemma execute_files (lts_content : string) (flags : list string)
      (fs : gmap string string) :
  files_of (execute_ltsp_command env lts_content (map Some flags) fs) =
    delete (temp_path env fs)
      (run_process env (command_line env (temp_path env fs) flags) 30
         (with_spec env lts_content fs)).2.
Proof. by rewrite execute_run. Qed.

Lemma delete_with_spec (lts_content : string) (fs : gmap string string) :
  delete (temp_path env fs) (with_spec env lts_content fs) = fs.
Proof. unfold with_spec. apply delete_insert_id, temp_path_fresh. Qed.


Lemma error_reply_status (e : exn) :
  cls (error_reply env e) = HTTPException 408
  \/ cls (error_reply env e) = HTTPException 500.
Proof. unfold error_reply. destruct (cls e); cbn; auto. Qed.

End Logging.



(** X3: when the command cannot be started because the executable is
    missing, the reply is HTTP 500 with the text that names the jar path;
    only the command line has been logged, and the files are as before. *)
Theorem X3_java_missing
        (env : environment) (lts_content : string) (flags : list string)
        (fs : gmap string string) (program : string) :
  exec env (["java"; "-jar"; LTSP_JAR_PATH env; mktemp env (dom fs)] ++ flags)
       (<[mktemp env (dom fs) := lts_content]> fs) = NoSuchExecutable program ->
  result_of (execute_ltsp_command env lts_content (map Some flags) fs) =
    Raise (Exn (HTTPException 500)
             ("Java or ltsp.jar not found. Please ensure Java is installed and ltsp.jar exists at "
              +:+ LTSP_JAR_PATH env)) /\
  log_lines (trace_of (execute_ltsp_command env lts_content (map Some flags) fs))
    = [(INFO,
        "Executing command: " +:+
        String.concat " "
          (["java"; "-jar"; LTSP_JAR_PATH env; mktemp env (dom fs)] ++ flags))] /\
  files_of (execute_ltsp_command env lts_content (map Some flags) fs) = fs.
Proof.
  intros Hexec. rewrite execute_run. cbv zeta.
  unfold result_of, trace_of, files_of, run_process, command_line, with_spec,
    temp_path.
  rewrite Hexec. cbn [fst snd].
  split; [done|]. split.
  - rewrite !log_lines_app, log_lines_cleanup_trace. cbn.
    by rewrite lookup_insert_eq.
  - apply delete_insert_id, (temp_path_fresh env).
Qed.

Lemma X3_witness :
  result_of (execute_ltsp_command (Demo.installation false) "P = (a -> P)."
               (map Some ["-b"; "parse"]) Demo.disk) =
    Raise (Exn (HTTPException 500)
             ("Java or ltsp.jar not found. Please ensure Java is installed and ltsp.jar exists at "
              +:+ LTSP_JAR_PATH (Demo.installation false))).
Proof.
  apply (X3_java_missing (Demo.installation false) "P = (a -> P)."
           ["-b"; "parse"] Demo.disk "java").
  vm_compute. reflexivity.
Defined.

(** X4: when starting the command raises any other exception, its text is
    logged as an error and relayed in an HTTP 500; the files are as
    before. *)
Theorem X4_other_exception_relayed
        (env : environment) (lts_content : string) (flags : list string)
        (fs : gmap string string) (msg : string) :
  exec env (["java"; "-jar"; LTSP_JAR_PATH env; mktemp env (dom fs)] ++ flags)
       (<[mktemp env (dom fs) := lts_content]> fs) = SpawnError msg ->
  result_of (execute_ltsp_command env lts_content (map Some flags) fs) =
    Raise (Exn (HTTPException 500) ("Internal server error: " +:+ msg)) /\
  log_lines (trace_of (execute_ltsp_command env lts_content (map Some flags) fs))
    = [(INFO,
        "Executing command: " +:+
        String.concat " "
          (["java"; "-jar"; LTSP_JAR_PATH env; mktemp env (dom fs)] ++ flags));
       (ERROR, "Error executing command: " +:+ msg)] /\
  files_of (execute_ltsp_command env lts_content (map Some flags) fs) = fs.
Proof.
  intros Hexec. rewrite execute_run. cbv zeta.
  unfold result_of, trace_of, files_of, run_process, command_line, with_spec,
    temp_path.
  rewrite Hexec. cbn [fst snd].
  split; [done|]. split.
  - rewrite !log_lines_app, log_lines_cleanup_trace. cbn.
    by rewrite lookup_insert_eq.
  - apply delete_insert_id, (temp_path_fresh env).
Qed.

Lemma X4_witness :
  result_of (execute_ltsp_command Demo.env "DENIED"
               (map Some ["-b"; "parse"]) Demo.disk) =
    Raise (Exn (HTTPException 500)
             ("Internal server error: " +:+
              "[Errno 13] Permission denied: 'java'")).
Proof.
  apply (X4_other_exception_relayed Demo.env "DENIED" ["-b"; "parse"]
           Demo.disk "[Errno 13] Permission denied: 'java'").
  vm_compute. reflexivity.
Defined.

Section Tidy.
Context (env : environment).

Lemma run_process_leaves (cmd : list string) (t : N)
      (fs : gmap string string) :
  leaves_files env -> (run_process env cmd t fs).2 = fs.
Proof.
  intros Htidy. unfold run_process.
  destruct (exec env cmd fs) as [program|msg|d cp fs'] eqn:E; [done|done|].
  apply Htidy in E as ->. by destruct (within d t).
Qed.

End Tidy.

(** X9: the probe counts java as available exactly when java -version
    starts and ends within 5 seconds; its exit status is not looked at,
    and a missing executable, any other failure to start, and a timeout
    all count as unavailable.  The probe never raises, and it reports the
    jar path it checked. *)
Theorem X9_java_available (env : environment) (fs : gmap string string) :
  exists h,
    result_of (health_check env fs) = Return h /\
    java_available h =
      match exec env ["java"; "-version"] fs with
      | Started d _ _ => within d 5
      | NoSuchExecutable _ | SpawnError _ => false
      end /\
    ltsp_jar_path h = LTSP_JAR_PATH env /\
    files_of (health_check env fs) =
      match exec env ["java"; "-version"] fs with
      | Started _ _ fs' => fs'
      | NoSuchExecutable _ | SpawnError _ => fs
      end.
Proof.
  rewrite health_check_eq. eexists. split; [reflexivity|].
  unfold files_of, run_process. cbn [fst snd java_available ltsp_jar_path].
  destruct (exec env ["java"; "-version"] fs) as [program|msg|d cp fs'];
    [done|done|].
  by destruct (within d 5).
Qed.

(** X10: the index page lists the paths of the six POST routes, each under
    one key, and nothing else. *)
Theorem X10_index_lists_routes (p : string) :
  (exists k, endpoints root !! k = Some p) <-> (exists r, path_of r = p).
Proof.
  split.
  - intros [k Hk]. apply elem_of_map_to_list in Hk.
    revert Hk. vm_compute map_to_list. rewrite !elem_of_cons.
    intros [H|[H|[H|[H|[H|[H|H%elem_of_nil]]]]]]; try done;
      injection H as _ ->;
      first [by exists Parse | by exists Compile | by exists Compose
            | by exists CheckSafety | by exists CheckProgress
            | by exists CheckLtl].
  - intros [r <-].
    destruct r;
      [exists "parse"|exists "compile"|exists "compose"|exists "safety"
      |exists "progress"|exists "ltl"]; vm_compute; reflexivity.
Qed.

(** X11: a command is never run unlogged: in the trace of
    [execute_ltsp_command] every subprocess.run comes right after the INFO
    line that spells out its command, the items joined by single
    spaces. *)
Theorem X11_logged_command
        (env : environment) (lts_content : string)
        (args : list (option string)) (fs : gmap string string)
        (cmd : list string) (t : N) (r : outcome CompletedProcess) :
  EvRun cmd t r ∈ trace_of (execute_ltsp_command env lts_content args fs) ->
  exists before after,
    trace_of (execute_ltsp_command env lts_content args fs) =
      before
        ++ EvLog INFO ("Executing command: " +:+ String.concat " " cmd)
        :: EvRun cmd t r :: after.
Proof.
  intros H.
  destruct (run_in_trace env _ _ _ _ _ _ H) as (flags & -> & -> & -> & -> & _).
  rewrite execute_run. unfold trace_of. cbn [fst snd].
  eexists [_; _; _], _. reflexivity.
Qed.

Lemma X11_witness :
  exists before after,
    trace_of (execute_ltsp_command Demo.env "WARN"
                [Some "-c"; Some "safety"; Some "-p"; Some "SYSTEM"]
                Demo.disk) =
      before
        ++ EvLog INFO
             ("Executing command: " +:+
              String.concat " "
                ["java"; "-jar"; "/app/ltsp.jar"; "0";
                 "-c"; "safety"; "-p"; "SYSTEM"])
        :: EvRun ["java"; "-jar"; "/app/ltsp.jar"; "0";
                  "-c"; "safety"; "-p"; "SYSTEM"] 30
             (Return (Demo.report 0 "Compiled" "warning: unused action"))
        :: after.
Proof.
  apply (X11_logged_command Demo.env "WARN"
           [Some "-c"; Some "safety"; Some "-p"; Some "SYSTEM"] Demo.disk).
  vm_compute. repeat constructor.
Defined.

(** X12: no response of [execute_ltsp_command] has the empty string in
    [error]: the field is either None or a text of at least one
    character. *)
Theorem X12_error_never_empty
        (env : environment) (lts_content : string)
        (args : list (option string)) (fs : gmap string string)
        (resp : LTSResponse) :
  result_of (execute_ltsp_command env lts_content args fs) = Return resp ->
  error resp <> Some "".
Proof.
  intros H. destruct (return_has_run env _ _ _ _ H) as (cmd & cp & _ & ->).
  cbn. by destruct (stderr cp).
Qed.

Lemma X12_witness :
  error {| success := true; output := "Parsed successfully"; error := None |}
    <> Some "".
Proof.
  apply (X12_error_never_empty Demo.env "P = (a -> P)."
           [Some "-b"; Some "parse"] Demo.disk).
  vm_compute. reflexivity.
Defined.

(** ** [execute_ltsp_command] on any text *)
Import Unicode.

Section AnyText.
Context (env : environment).

(** On text that encodes, the call is the one of [Api]. *)
Lemma execute_str_encoded (lts_content : list N) (data : string)
      (args : list (option string)) (fs : gmap string string) :
  utf8_encode lts_content = inr data ->
  execute_ltsp_command_str env lts_content args fs =
    execute_ltsp_command env data args fs.
Proof.
  intros Henc.
  unfold execute_ltsp_command_str, execute_ltsp_command, with_file, write_str.
  rewrite Henc.
  unfold bind, NamedTemporaryFile, write, close, ret. cbn [name buffer].
  by destruct (try_finally _ _ _) as [[r fs'] t].
Qed.

(** On text that does not encode, the call ends in the [with] block. *)
Lemma execute_str_unencodable (lts_content : list N) (err : encode_error)
      (args : list (option string)) (fs : gmap string string) :
  utf8_encode lts_content = inl err ->
  execute_ltsp_command_str env lts_content args fs =
    (Raise (Exn OtherError (encode_error_text err)),
     <[mktemp env (dom fs) := ""]> fs,
     [EvCreate (mktemp env (dom fs)); EvClose (mktemp env (dom fs))]).
Proof.
  intros Henc.
  unfold execute_ltsp_command_str, with_file, write_str. rewrite Henc.
  unfold bind, NamedTemporaryFile, raise, close.
  cbn [name buffer app]. by rewrite insert_insert_eq.
Qed.

Lemma execute_leaves (lts_content : string) (args : list (option string))
      (fs : gmap string string) :
  leaves_files env ->
  files_of (execute_ltsp_command env lts_content args fs) = fs.
Proof.
  intros Htidy.
  destruct (all_str_cases args) as [[flags ->]|Hnone].
  - rewrite execute_files, run_process_leaves by done.
    apply delete_with_spec.
  - by rewrite (execute_null env _ _ _ Hnone).
Qed.

End AnyText.

(** C2 fails at a null process: the body {"content": "P = (a -> P).",
    "process": null} validates, and /compile then runs no command at all:
    joining the command for the log line raises, and the request ends in
    HTTP 500. *)
Theorem C2_null_process_runs_nothing :
  call_of Compile null_process_body
    = Some (CallCompile (Demo.request "P = (a -> P)." None)) /\
  commands_run
    (trace_of (compile Demo.env (Demo.request "P = (a -> P)." None)
                 Demo.disk)) = [] /\
  result_of (compile Demo.env (Demo.request "P = (a -> P)." None) Demo.disk)
    = Raise (Exn (HTTPException 500)
               "Internal server error: sequence item 7: expected str instance, NoneType found").
Proof. vm_compute. repeat split. Qed.

(** C4 fails at text that does not encode: with the content "\ud800" the
    write raises inside the [with] block, before the [try]; the exception
    leaves the function as it is, nothing is unlinked, and the file "0",
    which was not there before, stays behind, empty. *)
Theorem C4_unencodable_content_keeps_file :
  result_of (execute_ltsp_command_str Demo.env [0xD800%N]
               [Some "-b"; Some "parse"] Demo.disk)
    = Raise (Exn OtherError
               "'utf-8' codec can't encode character '\ud800' in position 0: surrogates not allowed") /\
  Demo.disk !! "0" = None /\
  files_of (execute_ltsp_command_str Demo.env [0xD800%N]
              [Some "-b"; Some "parse"] Demo.disk) !! "0" = Some "" /\
  trace_of (execute_ltsp_command_str Demo.env [0xD800%N]
              [Some "-b"; Some "parse"] Demo.disk)
    = [EvCreate "0"; EvClose "0"].
Proof. vm_compute. repeat split. Qed.

(** C6 fails on two requests.  With a null process on /check/safety the
    steps are create, write, close, unlink: no analyzer is run, and the
    reply is HTTP 500.  With the content "\ud800" the steps are create and
    close: nothing is run, nothing is unlinked, and the file stays. *)
Theorem C6_pipeline_cut_short :
  steps (trace_of (check_safety Demo.env (Demo.request "P = (a -> P)." None)
                     Demo.disk))
    = [EvCreate "0"; EvWrite "0" "P = (a -> P)."; EvClose "0";
       EvUnlink "0" true] /\
  result_of (check_safety Demo.env (Demo.request "P = (a -> P)." None)
               Demo.disk)
    = Raise (Exn (HTTPException 500)
               "Internal server error: sequence item 7: expected str instance, NoneType found") /\
  steps (trace_of (execute_ltsp_command_str Demo.env [0xD800%N]
                     [Some "-c"; Some "safety"; Some "-p"; Some "DEFAULT"]
                     Demo.disk))
    = [EvCreate "0"; EvClose "0"] /\
  files_of (execute_ltsp_command_str Demo.env [0xD800%N]
              [Some "-c"; Some "safety"; Some "-p"; Some "DEFAULT"]
              Demo.disk) !! "0" = Some "".
Proof. vm_compute. repeat split. Qed.

(** X2: an exception that leaves [execute_ltsp_command] is an
    HTTPException with status 408 or 500, or it is the UnicodeEncodeError
    of the write, for text that does not encode. *)
Theorem X2_exceptions_that_escape
        (env : environment) (lts_content : list N)
        (args : list (option string)) (fs : gmap string string) (e : exn) :
  result_of (execute_ltsp_command_str env lts_content args fs) = Raise e ->
  cls e = HTTPException 408 \/ cls e = HTTPException 500
  \/ exists err,
      utf8_encode lts_content = inl err /\
      e = Exn OtherError (encode_error_text err).
Proof.
  destruct (utf8_encode lts_content) as [err|data] eqn:Henc.
  - rewrite (execute_str_unencodable env _ _ _ _ Henc).
    intros [= <-]. right. right. by exists err.
  - rewrite (execute_str_encoded env _ _ _ _ Henc), execute_reply.
    destruct (run_results _) as [|[cp|e'] _]; cbn [reply_of]; try done;
      intros [= <-];
      destruct (error_reply_status env (join_error args)) as [H|H];
      try destruct (error_reply_status env e') as [H'|H']; auto.
Qed.

Lemma X2_witness :
  cls (Exn (HTTPException 408) "Command execution timed out")
    = HTTPException 408
  \/ cls (Exn (HTTPException 408) "Command execution timed out")
     = HTTPException 500
  \/ exists err,
      utf8_encode [0x4C; 0x4F; 0x4F; 0x50]%N = inl err /\
      Exn (HTTPException 408) "Command execution timed out"
        = Exn OtherError (encode_error_text err).
Proof.
  apply (X2_exceptions_that_escape Demo.env [0x4C; 0x4F; 0x4F; 0x50]%N
           [Some "-b"; Some "parse"] Demo.disk).
  vm_compute. reflexivity.
Defined.

(** X5: when the external commands leave the files alone, a call of
    [execute_ltsp_command] on text that encodes leaves the files exactly as
    they were, whatever its outcome; on text that does not encode it
    leaves one more file, the empty temporary file. *)
Theorem X5_files_after_call
        (env : environment) (lts_content : list N)
        (args : list (option string)) (fs : gmap string string) :
  leaves_files env ->
  files_of (execute_ltsp_command_str env lts_content args fs) =
    match utf8_encode lts_content with
    | inr _ => fs
    | inl _ => <[mktemp env (dom fs) := ""]> fs
    end.
Proof.
  intros Htidy. destruct (utf8_encode lts_content) as [err|data] eqn:Henc.
  - by rewrite (execute_str_unencodable env _ _ _ _ Henc).
  - rewrite (execute_str_encoded env _ _ _ _ Henc). by apply execute_leaves.
Qed.

Lemma X5_witness :
  files_of (execute_ltsp_command_str tidy_env [0x4C; 0x4F; 0x4F; 0x50]%N
              [Some "-b"; Some "parse"] Demo.disk) = Demo.disk
  /\ files_of (execute_ltsp_command_str tidy_env [0xD800]%N
                 [Some "-b"; Some "parse"] Demo.disk)
     = <["0" := ""]> Demo.disk.
Proof.
  assert (leaves_files tidy_env) as Htidy.
  { intros cmd fs d cp fs'. unfold tidy_env, tidy_machine. cbn [exec].
    destruct (Demo.machine true cmd fs); congruence. }
  split.
  - exact (X5_files_after_call tidy_env [0x4C; 0x4F; 0x4F; 0x50]%N
             [Some "-b"; Some "parse"] Demo.disk Htidy).
  - exact (X5_files_after_call tidy_env [0xD800]%N
             [Some "-b"; Some "parse"] Demo.disk Htidy).
Defined.

(** X7: the steps of any call of [execute_ltsp_command].  On text that
    does not encode: the file is created and closed, and that is all.  On
    text that encodes: the file is created, written and closed, at most
    one command is run, on that file and with timeout 30, and the call
    ends with one unlink of the file; no command is run exactly when an
    argument is None. *)
Theorem X7_steps_of_a_call
        (env : environment) (lts_content : list N)
        (args : list (option string)) (fs : gmap string string) :
  (exists err,
      utf8_encode lts_content = inl err /\
      steps (trace_of (execute_ltsp_command_str env lts_content args fs)) =
        [EvCreate (mktemp env (dom fs)); EvClose (mktemp env (dom fs))])
  \/ exists data mid b,
      utf8_encode lts_content = inr data /\
      steps (trace_of (execute_ltsp_command_str env lts_content args fs)) =
        [EvCreate (mktemp env (dom fs));
         EvWrite (mktemp env (dom fs)) data;
         EvClose (mktemp env (dom fs))]
          ++ mid ++ [EvUnlink (mktemp env (dom fs)) b] /\
      ((all_str args = None /\ mid = [])
       \/ exists flags r,
           args = map Some flags /\
           mid = [EvRun (["java"; "-jar"; LTSP_JAR_PATH env;
                          mktemp env (dom fs)] ++ flags) 30 r]).
Proof.
  destruct (utf8_encode lts_content) as [err|data] eqn:Henc.
  - left. exists err. split; [done|].
    by rewrite (execute_str_unencodable env _ _ _ _ Henc).
  - right. rewrite (execute_str_encoded env _ _ _ _ Henc). exists data.
    destruct (all_str_cases args) as [[flags ->]|Hnone].
    + rewrite execute_steps. eexists [_], _. split; [done|].
      split; [reflexivity|]. right. eexists flags, _. split; reflexivity.
    + rewrite (execute_null env _ _ _ Hnone). exists [], true.
      split; [done|]. split; [reflexivity|]. by left.
Qed.

(** X13: whatever the request, a command that an endpoint runs is java
    -jar on the jar, on the temporary file, followed by exactly the mode
    flags of the route with the process name of the request, and it is run
    with timeout 30. *)
Theorem X13_command_shape
        (env : environment) (c : call) (fs : gmap string string)
        (cmd : list string) (t : N) :
  (cmd, t) ∈ commands_run (trace_of (handle env c fs)) ->
  t = 30%N /\
  exists pr,
    (process (request_of c) = Some pr \/ route_of c = Parse) /\
    cmd = ["java"; "-jar"; LTSP_JAR_PATH env; mktemp env (dom fs)]
            ++ mode_flags (route_of c) pr (property_of c).
Proof.
  assert ((exists pr, process (request_of c) = Some pr \/ route_of c = Parse)
          \/ (route_of c <> Parse /\ process (request_of c) = None))
    as [[pr Hpr]|[Hr Hp]].
  { destruct (process (request_of c)) as [pr|]; [left; exists pr; by left|].
    destruct (route_of c) eqn:E; [left; exists ""; by right|..];
      by right. }
  - rewrite (handle_flags env c pr Hpr), execute_commands.
    intros [= -> ->]%list_elem_of_singleton. split; [done|]. by exists pr.
  - rewrite handle_execute, (execute_null env _ _ _ (args_of_null c Hr Hp)).
    by intros ?%elem_of_nil.
Qed.

Lemma X13_witness :
  30%N = 30%N /\
  exists pr,
    (process (request_of (CallCheckLtl
                            {| base := Demo.request "WARN" (Some "SYSTEM");
                               property := "LIVE" |})) = Some pr
     \/ route_of (CallCheckLtl
                    {| base := Demo.request "WARN" (Some "SYSTEM");
                       property := "LIVE" |}) = Parse) /\
    ["java"; "-jar"; "/app/ltsp.jar"; "0";
     "-c"; "ltl_property"; "-p"; "SYSTEM"; "-l"; "LIVE"]
      = ["java"; "-jar"; LTSP_JAR_PATH Demo.env; mktemp Demo.env (dom Demo.disk)]
          ++ mode_flags CheckLtl pr "LIVE".
Proof.
  apply (X13_command_shape Demo.env
           (CallCheckLtl {| base := Demo.request "WARN" (Some "SYSTEM");
                            property := "LIVE" |}) Demo.disk).
  vm_compute. repeat constructor.
Defined.
